(** * Access-control mixins of [mult_mixins/mixins.py]

    A shallow embedding of the four Django mixins [StaffMixin],
    [SuperuserMixin], [OwnerMixin] and [OwnerOrStaffMixin], together with
    the part of Django's [UserPassesTestMixin] that turns the value of
    [test_func] into what the caller observes, and the properties the
    specification states about them.

    Vocabulary of the specification, and what it is in the code:
    - Principal: [self.request.user];
    - ResourceOwnerReference: [self.kwargs.get(self.get_owner_kwargs())];
    - PrincipalDirectory: [get_user_model().objects];
    - Allow: [test_func] returns a true value and the view runs;
    - DenyForbidden: [PermissionDenied(permission_denied_message)];
    - DenyNotFound: [Http404(...)] raised by [test_func];
    - audit log: the calls of [logger.info]. *)

From stdpp Require Import base strings gmap.

Local Open Scope string_scope.

(** ** Data model *)

(** [request.user]: the attributes the mixins and Django's dispatch read.
    They are independent attributes of a Python object. *)
Record User : Type := mkUser {
  username : string;
  is_staff : bool;
  is_superuser : bool;
  is_authenticated : bool
}.

Definition get_username (u : User) : string := username u.

(** [django.contrib.auth.models.AnonymousUser]. *)
Definition AnonymousUser : User :=
  {| username := ""; is_staff := false; is_superuser := false;
     is_authenticated := false |}.

(** [self.request]: the user and the requested path. *)
Record HttpRequest : Type := mkRequest {
  user : User;
  path : string
}.

(** A view instance: [self.request], [self.kwargs] (the keyword arguments
    captured from the URL) and the attribute [owner_kwargs]
    ([None] unless the view sets it). *)
Record View : Type := mkView {
  request : HttpRequest;
  kwargs : gmap string string;
  owner_kwargs : option string
}.

(** ** Effects: the logger and the exception of [test_func] *)

Inductive LogLevel : Type := DEBUG | INFO | WARNING | ERROR | CRITICAL.

Record LogRecord : Type := mkLogRecord {
  levelname : LogLevel;
  msg : string
}.

(** What a Python call gives back: a value, or [raise Http404(message)]. *)
Inductive Result (A : Type) : Type :=
  | Ok (a : A)
  | RaiseHttp404 (message : string).
Arguments Ok {A} a.
Arguments RaiseHttp404 {A} message.

(** A computation threads the records emitted so far. *)
Definition Py (A : Type) : Type := list LogRecord → Result A * list LogRecord.

Definition ret {A : Type} (a : A) : Py A := λ log, (Ok a, log).

Definition bind {A B : Type} (m : Py A) (k : A → Py B) : Py B :=
  λ log, match m log with
         | (Ok a, log') => k a log'
         | (RaiseHttp404 e, log') => (RaiseHttp404 e, log')
         end.

Definition raise_Http404 {A : Type} (message : string) : Py A :=
  λ log, (RaiseHttp404 message, log).

(** [logger.info(message)]. *)
Definition logger_info (message : string) : Py unit :=
  λ log, (Ok tt, (log ++ [mkLogRecord INFO message])%list).

Notation "m ;; k" := (bind m (λ _, k))
  (at level 100, right associativity, only parsing).

(** ** Python and Django primitives *)

(** [str(x)] for an optional string, as [%s] formats it. *)
Definition py_str (o : option string) : string :=
  match o with
  | Some s => s
  | None => "None"
  end.

(** [get_user_model().objects.filter(username=v).exists()] over the set of
    user names stored in the user table. A [None] value selects the rows
    whose user name is NULL, and there are none. *)
Definition filter_username_exists (objects : gset string) (v : option string) : bool :=
  match v with
  | Some name => bool_decide (name ∈ objects)
  | None => false
  end.

(** Python's [s == v] between a string and an optional string. *)
Definition py_eq (s : string) (v : option string) : bool :=
  bool_decide (v = Some s).

(** ** The mixins *)

(** The interface of [UserPassesTestMixin] the four classes fill in. *)
Record UserPassesTestMixin : Type := mkMixin {
  raise_exception : bool;
  permission_denied_message : string;
  test_func : gset string → View → Py bool
}.

Module StaffMixin.
Definition raise_exception : bool := true.
Definition permission_denied_message : string :=
  "You are not a staff user. You do not have the right to view this page.".

Definition test_func (objects : gset string) (self : View) : Py bool :=
  ret (is_staff (user (request self))).
End StaffMixin.

Module SuperuserMixin.
Definition raise_exception : bool := true.
Definition permission_denied_message : string :=
  "You are not a superuser user. You do not have the right to view this page.".

Definition test_func (objects : gset string) (self : View) : Py bool :=
  ret (is_superuser (user (request self))).
End SuperuserMixin.

Module OwnerMixin.
Definition permission_denied_message : string :=
  "You are not the owner of the page. You cannot view it.".
Definition raise_exception : bool := true.

Definition get_owner_kwargs (self : View) : string :=
  match owner_kwargs self with
  | None => "username"
  | Some key => key
  end.

Definition test_func (objects : gset string) (self : View) : Py bool :=
  if negb (filter_username_exists objects (kwargs self !! get_owner_kwargs self))
  then raise_Http404
         ("User '" +:+ py_str (kwargs self !! get_owner_kwargs self)
            +:+ "' does not exist.")
  else ret (py_eq (get_username (user (request self)))
                  (kwargs self !! get_owner_kwargs self)).
End OwnerMixin.

Module OwnerOrStaffMixin.
Definition permission_denied_message : string :=
  "You are not the owner of the page nor a staff user. You cannot view it.".
Definition raise_exception : bool := true.

Definition get_owner_kwargs (self : View) : string :=
  match owner_kwargs self with
  | None => "username"
  | Some key => key
  end.

Definition test_func (objects : gset string) (self : View) : Py bool :=
  if negb (filter_username_exists objects (kwargs self !! get_owner_kwargs self))
  then raise_Http404
         ("User '" +:+ py_str (kwargs self !! get_owner_kwargs self)
            +:+ "' does not exist.")
  else if py_eq (get_username (user (request self)))
                (kwargs self !! get_owner_kwargs self)
  then ret true
  else if is_staff (user (request self))
  then logger_info
         ("Staff user " +:+ get_username (user (request self))
            +:+ " accessed '" +:+ path (request self) +:+ "' page") ;;
       ret true
  else ret false.
End OwnerOrStaffMixin.

Definition StaffOnly : UserPassesTestMixin :=
  mkMixin StaffMixin.raise_exception StaffMixin.permission_denied_message
          StaffMixin.test_func.

Definition SuperuserOnly : UserPassesTestMixin :=
  mkMixin SuperuserMixin.raise_exception SuperuserMixin.permission_denied_message
          SuperuserMixin.test_func.

Definition OwnerOnly : UserPassesTestMixin :=
  mkMixin OwnerMixin.raise_exception OwnerMixin.permission_denied_message
          OwnerMixin.test_func.

Definition OwnerOrStaff : UserPassesTestMixin :=
  mkMixin OwnerOrStaffMixin.raise_exception
          OwnerOrStaffMixin.permission_denied_message
          OwnerOrStaffMixin.test_func.

(** ** Django's dispatch *)

(** What the caller of a guarded view observes. [LoginRedirect] is the
    answer of [AccessMixin.handle_no_permission] for a class that does not
    set [raise_exception]. *)
Inductive Verdict : Type :=
  | Allow
  | DenyForbidden (reason : string)
  | DenyNotFound (reason : string)
  | LoginRedirect.

(** [AccessMixin.handle_no_permission] (Django 2.1 and later; before, the
    test is on [raise_exception] alone). *)
Definition handle_no_permission (cls : UserPassesTestMixin) (self : View) : Verdict :=
  if raise_exception cls || is_authenticated (user (request self))
  then DenyForbidden (permission_denied_message cls)
  else LoginRedirect.

(** [UserPassesTestMixin.dispatch]: run [test_func]; a false value goes to
    [handle_no_permission], an exception of [test_func] propagates. The
    records logged come back with the verdict. *)
Definition dispatch (cls : UserPassesTestMixin) (objects : gset string)
    (self : View) (log : list LogRecord) : Verdict * list LogRecord :=
  match test_func cls objects self log with
  | (Ok true, log') => (Allow, log')
  | (Ok false, log') => (handle_no_permission cls self, log')
  | (RaiseHttp404 message, log') => (DenyNotFound message, log')
  end.

(** The verdict alone, of an evaluation that starts from an empty log. *)
Definition evaluate (cls : UserPassesTestMixin) (objects : gset string)
    (self : View) : Verdict :=
  fst (dispatch cls objects self []).

(** The value the owner policies read from the request. *)
Definition owner_ref (self : View) : option string :=
  kwargs self !! OwnerMixin.get_owner_kwargs self.

(** ** The three verdicts of the specification *)

Definition is_Allow (v : Verdict) : bool :=
  match v with Allow => true | _ => false end.
Definition is_DenyForbidden (v : Verdict) : bool :=
  match v with DenyForbidden _ => true | _ => false end.
Definition is_DenyNotFound (v : Verdict) : bool :=
  match v with DenyNotFound _ => true | _ => false end.

(** How many of the three verdicts of the specification [v] is. *)
Definition verdict_count (v : Verdict) : nat :=
  Nat.b2n (is_Allow v) + Nat.b2n (is_DenyForbidden v) + Nat.b2n (is_DenyNotFound v).

(** ** Values used in the examples, after the repository's tests *)

Definition owner : User := mkUser "owner" false false true.
Definition other : User := mkUser "other" false false true.
Definition staff : User := mkUser "staff" true false true.

(** A principal no login produced, yet flagged staff and superuser: the
    attributes are independent, and only the flags are read. *)
Definition unauthenticated_staff : User := mkUser "ghost" true true false.

(** The user table of [OwnerOrStaffUserRequiredMixinTest.setUpTestData]. *)
Definition test_objects : gset string := {["owner"; "other"; "staff"]}.

(** A user table in which one row has the empty user name (a row stored
    with [objects.create(username='')]; [create_user] refuses it). *)
Definition objects_with_blank : gset string := {[""; "owner"]}.

(** A [GET /rand] of [who] on the page of [name], default lookup key. *)
Definition page_of (name : string) (who : User) : View :=
  mkView (mkRequest who "/rand") {["username" := name]} None.

(** ** The test helper of [mult_mixins/tests/helper.py]

    [Helper] builds the keyword arguments of a model row out of class-level
    defaults and per-instance overrides and creates the row on demand;
    [UserHelper] is its instance for the user model, the one the tests put
    in [request.user].

    Scope of the model. The names of attributes, keywords and defaults are
    the names of fields of the model, a type [F] of their own: they are not
    names of members of the class ([create], [object], [pk], ...), which
    [setattr] would replace or refuse. The values are [None], booleans,
    integers and strings (an attribute that is itself a [Helper] is not
    modelled). The model manager is Django's and is a parameter,
    [objects_call]: given a call and the state of the database it returns
    an object or raises, and leaves a new state. *)

Module helper.

Inductive PyVal : Type :=
  | VNone
  | VBool (b : bool)
  | VInt (n : Z)
  | VStr (s : string).

(** Python's truth value. *)
Definition truthy (v : PyVal) : bool :=
  match v with
  | VNone => false
  | VBool b => b
  | VInt n => negb (n =? 0)%Z
  | VStr s => negb (String.eqb s "")
  end.

(** [E] is the type of the exceptions the manager raises. *)
Inductive Exception (F E : Type) : Type :=
  | HelperAttributeNotConfigured (message : string)
  | HelperAttributeImproperlyConfigured (message : string)
  | AttributeError (name : F)
  | ManagerError (e : E).
Arguments HelperAttributeNotConfigured {F E} message.
Arguments HelperAttributeImproperlyConfigured {F E} message.
Arguments AttributeError {F E} name.
Arguments ManagerError {F E} e.

Inductive Outcome (F E A : Type) : Type :=
  | Returns (a : A)
  | Raises (e : Exception F E).
Arguments Returns {F E A} a.
Arguments Raises {F E A} e.

#[global] Instance Outcome_ret {F E : Type} : MRet (Outcome F E) := λ A a, Returns a.
#[global] Instance Outcome_bind {F E : Type} : MBind (Outcome F E) := λ A B k m,
  match m with
  | Returns a => k a
  | Raises e => Raises e
  end.

Inductive ManagerMethod : Type := create | create_user | create_superuser.

Section helper_class.
Context {F : Type} `{Countable F} {E DB Obj : Type}.

(** ['k' in kwargs and kwargs['k']], as a condition. *)
Definition given_and_true (kwargs : gmap F PyVal) (k : F) : bool :=
  match kwargs !! k with
  | Some v => truthy v
  | None => false
  end.

(** The value of a class attribute: a plain value, a dict, a list or tuple
    of names, or a model class. *)
Inductive ClassAttr : Type :=
  | AVal (v : PyVal)
  | ADict (d : gmap F PyVal)
  | AList (l : list F)
  | ATuple (l : list F)
  | AModel (name : string).

Definition attr_truthy (a : ClassAttr) : bool :=
  match a with
  | AVal v => truthy v
  | ADict d => negb (bool_decide (d = ∅))
  | AList l | ATuple l => negb (bool_decide (l = []))
  | AModel _ => true
  end.

(** The three attributes a subclass of [Helper] sets. *)
Record HelperClass : Type := mkHelperClass {
  defaults : ClassAttr;
  iter_fields : ClassAttr;
  model : ClassAttr
}.


(** A call [model.objects.method] with the fields as keyword arguments. *)
Record ManagerCall : Type := mkCall {
  call_method : ManagerMethod;
  call_model : string;
  call_fields : gmap F PyVal
}.

(** An instance: the attributes set by [setattr], and [_object]. *)
Record Instance : Type := mkInstance {
  attrs : gmap F PyVal;
  _object : option Obj
}.

(** Django's manager. *)
Variable objects_call : ManagerCall → DB → (Obj + E) * DB.

Definition get_defaults (cls : HelperClass) : Outcome F E (gmap F PyVal) :=
  if negb (attr_truthy (defaults cls))
  then Raises (HelperAttributeNotConfigured "'defaults' field not set. You have to set it.")
  else match defaults cls with
       | ADict d => Returns d
       | _ => Raises (HelperAttributeImproperlyConfigured "'defaults' field has to be a dict.")
       end.

Definition get_model (cls : HelperClass) : Outcome F E string :=
  if negb (attr_truthy (model cls))
  then Raises (HelperAttributeNotConfigured "'model' field not set. You have to set it.")
  else match model cls with
       | AModel name => Returns name
       | _ => Raises (HelperAttributeImproperlyConfigured
                        "'model' field has to be a django.db.models.base.ModelBase.")
       end.

Definition get_iter_fields (cls : HelperClass) : Outcome F E (list F) :=
  if negb (attr_truthy (iter_fields cls))
  then Raises (HelperAttributeNotConfigured
                 "'iter_fields' field not set. You have to set it.")
  else match iter_fields cls with
       | AList l | ATuple l => Returns l
       | _ => Raises (HelperAttributeImproperlyConfigured
                        "'iter_fields' field has to be a list or a tuple.")
       end.

(** [Helper.__init__]: the defaults first, the keywords over them. *)
Definition __init__ (cls : HelperClass) (kwargs : gmap F PyVal) : Outcome F E Instance :=
  d ← get_defaults cls;
  mret (mkInstance (kwargs ∪ d) None).

(** [(key, getattr(self, key))] for each key, in order, as [Helper.__iter__]
    yields them; a missing attribute ends the iteration with
    [AttributeError]. *)
Fixpoint getattrs (self : Instance) (keys : list F) : Outcome F E (list (F * PyVal)) :=
  match keys with
  | [] => Returns []
  | key :: keys' =>
      match attrs self !! key with
      | Some v => rest ← getattrs self keys'; mret ((key, v) :: rest)
      | None => Raises (AttributeError key)
      end
  end.

(** [dict(pairs)]: one entry per key, a later pair replacing an earlier. *)
Definition py_dict (pairs : list (F * PyVal)) : gmap F PyVal :=
  foldl (λ d kv, <[kv.1 := kv.2]> d) ∅ pairs.

(** [dict(self)], through [Helper.__iter__]. *)
Definition dict_self (cls : HelperClass) (self : Instance) : Outcome F E (gmap F PyVal) :=
  keys ← get_iter_fields cls;
  pairs ← getattrs self keys;
  mret (py_dict pairs).

(** [self._object = <call>]: the manager is asked; its object is kept, or
    its exception goes up and the instance stays as it was. *)
Definition set_object (self : Instance) (call : ManagerCall) (db : DB)
    : Outcome F E Instance * DB :=
  match objects_call call db with
  | (inl obj, db') => (Returns (mkInstance (attrs self) (Some obj)), db')
  | (inr e, db') => (Raises (ManagerError e), db')
  end.



End helper_class.

Arguments ClassAttr F {_ _}.
Arguments HelperClass F {_ _}.
Arguments ManagerCall F {_ _}.
Arguments Instance F {_ _} Obj.

(** *** [UserHelper] *)

(** The fields the defaults of [UserHelper] name. *)
Inductive UserField : Type :=
  | f_username | f_password | f_first_name | f_last_name
  | f_is_staff | f_is_superuser | f_email.

Definition field_name (f : UserField) : string :=
  match f with
  | f_username => "username"
  | f_password => "password"
  | f_first_name => "first_name"
  | f_last_name => "last_name"
  | f_is_staff => "is_staff"
  | f_is_superuser => "is_superuser"
  | f_email => "email"
  end.

Definition UserField_to_nat (f : UserField) : nat :=
  match f with
  | f_username => 0
  | f_password => 1
  | f_first_name => 2
  | f_last_name => 3
  | f_is_staff => 4
  | f_is_superuser => 5
  | f_email => 6
  end.

Definition UserField_of_nat (n : nat) : UserField :=
  match n with
  | 0 => f_username
  | 1 => f_password
  | 2 => f_first_name
  | 3 => f_last_name
  | 4 => f_is_staff
  | 5 => f_is_superuser
  | _ => f_email
  end.

#[global] Instance UserField_eq_dec : EqDecision UserField.
Proof. solve_decision. Defined.

#[global] Instance UserField_countable : Countable UserField.
Proof.
  refine (inj_countable' UserField_to_nat UserField_of_nat _).
  intros []; reflexivity.
Defined.

Definition UserHelper_defaults : gmap UserField PyVal :=
  <[f_username := VStr "toto"]>
  (<[f_password := VStr "hello-world"]>
  (<[f_first_name := VStr "Toto"]>
  (<[f_last_name := VStr "Tata"]>
  (<[f_is_staff := VBool false]>
  (<[f_is_superuser := VBool false]>
  (<[f_email := VStr "toto@example.com"]> ∅)))))).

(** The class attributes of [UserHelper]; ["auth.User"] stands for the
    class [get_user_model()] returns. *)
Definition UserHelper : HelperClass UserField :=
  mkHelperClass
    (ADict UserHelper_defaults)
    (AList [f_username; f_password; f_first_name; f_last_name; f_email; f_is_staff])
    (AModel "auth.User").

Section user_helper.
Context {E DB Obj : Type}.
Variable objects_call : ManagerCall UserField → DB → (Obj + E) * DB.

(** [UserHelper.create]. *)
Definition UserHelper_create (self : Instance UserField Obj) (db : DB)
    : Outcome UserField E (Instance UserField Obj) * DB :=
  match attrs self !! f_is_superuser with
  | None => (Raises (AttributeError f_is_superuser), db)
  | Some su =>
      match m ← get_model UserHelper;
            fields ← dict_self UserHelper self;
            mret (mkCall (if truthy su then create_superuser else create_user) m fields)
      with
      | Returns call => set_object objects_call self call db
      | Raises e => (Raises e, db)
      end
  end.

(** [UserHelper.__init__]. *)
Definition UserHelper_init (kwargs : gmap UserField PyVal) (db : DB)
    : Outcome UserField E (Instance UserField Obj) * DB :=
  match __init__ UserHelper kwargs with
  | Returns self =>
      UserHelper_create
        (if given_and_true kwargs f_is_staff || given_and_true kwargs f_is_superuser
         then mkInstance (<[f_is_staff := VBool true]> (attrs self)) (_object self)
         else self)
        db
  | Raises e => (Raises e, db)
  end.

(** [UserHelper.get_credentials], as the list it yields. *)
Definition get_credentials (self : Instance UserField Obj)
    : Outcome UserField E (list (UserField * PyVal)) :=
  getattrs self [f_username; f_password].

End user_helper.

(** What Django's [UserManager] makes of the flags of a call: [create_user]
    defaults both to [False], [create_superuser] both to [True]; the row
    carries the values given. *)
Definition created_is_staff (c : ManagerCall UserField) : bool :=
  match call_fields c !! f_is_staff, call_method c with
  | Some v, _ => truthy v
  | None, create_superuser => true
  | None, _ => false
  end.

Definition created_is_superuser (c : ManagerCall UserField) : bool :=
  match call_fields c !! f_is_superuser, call_method c with
  | Some v, _ => truthy v
  | None, create_superuser => true
  | None, _ => false
  end.

(** A stand-in for the manager, for the examples: it accepts every call,
    gives the call back as the object and keeps the calls it was given. *)
Definition recording_manager (c : ManagerCall UserField) (db : list (ManagerCall UserField))
    : (ManagerCall UserField + string) * list (ManagerCall UserField) :=
  (inl c, (db ++ [c])%list).

End helper.

(** ** Running [test_func] *)

(** The two copies of [get_owner_kwargs] are the same method. *)
Lemma owner_ref_OwnerOrStaff (self : View) :
  kwargs self !! OwnerOrStaffMixin.get_owner_kwargs self = owner_ref self.
Proof. reflexivity. Qed.

Lemma filter_username_exists_Some (objects : gset string) (name : string) :
  filter_username_exists objects (Some name) = true ↔ name ∈ objects.
Proof. simpl. apply bool_decide_eq_true. Qed.

Lemma filter_username_exists_true (objects : gset string) (v : option string) :
  filter_username_exists objects v = true ↔ ∃ name, v = Some name ∧ name ∈ objects.
Proof.
  destruct v as [name|]; simpl.
  - rewrite bool_decide_eq_true. split.
    + intros Hin. exists name. done.
    + intros (name' & [= ->] & Hin). done.
  - split; [done|]. intros (name & Hname & _). done.
Qed.

(** No matching entry: no value under the key, or a name that is not stored. *)
Lemma filter_username_exists_false (objects : gset string) (v : option string) :
  filter_username_exists objects v = false ↔ ∀ name, v = Some name → name ∉ objects.
Proof.
  destruct v as [name|]; simpl.
  - rewrite bool_decide_eq_false. split.
    + intros Hout name' [= <-]. exact Hout.
    + intros Hout. apply Hout. reflexivity.
  - split; [|done]. intros _ name Hname. discriminate.
Qed.

Lemma py_eq_Some (s name : string) : py_eq s (Some name) = bool_decide (s = name).
Proof.
  unfold py_eq. apply bool_decide_ext. split.
  - intros [= ->]. done.
  - intros ->. done.
Qed.

Section test_func_runs.
Variables (objects : gset string) (self : View) (log : list LogRecord).

Lemma OwnerMixin_unknown :
  filter_username_exists objects (owner_ref self) = false →
  OwnerMixin.test_func objects self log =
    (RaiseHttp404 ("User '" +:+ py_str (owner_ref self) +:+ "' does not exist."), log).
Proof. unfold OwnerMixin.test_func, owner_ref. intros ->. reflexivity. Qed.

Lemma OwnerOrStaffMixin_unknown :
  filter_username_exists objects (owner_ref self) = false →
  OwnerOrStaffMixin.test_func objects self log =
    (RaiseHttp404 ("User '" +:+ py_str (owner_ref self) +:+ "' does not exist."), log).
Proof.
  unfold OwnerOrStaffMixin.test_func. rewrite owner_ref_OwnerOrStaff.
  intros ->. reflexivity.
Qed.

Lemma OwnerMixin_known :
  filter_username_exists objects (owner_ref self) = true →
  OwnerMixin.test_func objects self log =
    (Ok (py_eq (get_username (user (request self))) (owner_ref self)), log).
Proof. unfold OwnerMixin.test_func, owner_ref. intros ->. reflexivity. Qed.

Lemma OwnerOrStaffMixin_known :
  filter_username_exists objects (owner_ref self) = true →
  OwnerOrStaffMixin.test_func objects self log =
    if py_eq (get_username (user (request self))) (owner_ref self)
    then (Ok true, log)
    else if is_staff (user (request self))
    then (Ok true,
          (log ++ [mkLogRecord INFO
                     ("Staff user " +:+ get_username (user (request self))
                        +:+ " accessed '" +:+ path (request self) +:+ "' page")])%list)
    else (Ok false, log).
Proof.
  unfold OwnerOrStaffMixin.test_func. rewrite owner_ref_OwnerOrStaff.
  intros ->. simpl.
  destruct (py_eq _ _); [reflexivity|].
  destruct (is_staff _); reflexivity.
Qed.
End test_func_runs.

Ltac known_owner Href Hin :=
  match type of Href with
  | owner_ref ?self = Some ?name =>
      let Hex := fresh "Hex" in
      assert (Hex : filter_username_exists _ (owner_ref self) = true)
        by (rewrite Href; apply filter_username_exists_Some; exact Hin)
  end.

(** Closes a decidable goal on concrete values by evaluating its decision. *)
Ltac by_computation := apply (bool_decide_unpack _); vm_compute; exact I.

(** ** The not-found check *)

(** C1. For every principal, authenticated or not, and every owner
    reference with no matching entry in the user table (a name that is not
    stored, or a request that carries no value under the lookup key),
    [OwnerOnly] and [OwnerOrStaff] both answer DenyNotFound, with a reason
    that quotes the reference. The check comes before any authorization
    comparison: the answer is reached whoever the principal is, and nothing
    is logged on the way. Conversely each of the two policies answers
    DenyNotFound only when the reference has no matching entry. *)
Theorem not_found_precedence (objects : gset string) (self : View)
    (log : list LogRecord) :
  (filter_username_exists objects (owner_ref self) = false →
     dispatch OwnerOnly objects self log =
       (DenyNotFound ("User '" +:+ py_str (owner_ref self) +:+ "' does not exist."), log)
     ∧ dispatch OwnerOrStaff objects self log =
       (DenyNotFound ("User '" +:+ py_str (owner_ref self) +:+ "' does not exist."), log))
  ∧ (∀ reason, (dispatch OwnerOnly objects self log).1 = DenyNotFound reason →
       filter_username_exists objects (owner_ref self) = false)
  ∧ (∀ reason, (dispatch OwnerOrStaff objects self log).1 = DenyNotFound reason →
       filter_username_exists objects (owner_ref self) = false).
Proof.
  split; [|split].
  - intros Hno. unfold dispatch; simpl.
    rewrite OwnerMixin_unknown, OwnerOrStaffMixin_unknown by exact Hno. done.
  - intros reason. unfold dispatch; simpl.
    destruct (filter_username_exists objects (owner_ref self)) eqn:Hex; [|done].
    rewrite OwnerMixin_known by exact Hex.
    unfold handle_no_permission; simpl. destruct (py_eq _ _); discriminate.
  - intros reason. unfold dispatch; simpl.
    destruct (filter_username_exists objects (owner_ref self)) eqn:Hex; [|done].
    rewrite OwnerOrStaffMixin_known by exact Hex.
    unfold handle_no_permission; simpl.
    destruct (py_eq _ _); [discriminate|].
    destruct (is_staff _); discriminate.
Qed.

(** The anonymous user asks for the page of a name nobody has
    ([test_anonymous_access_user_not_existing_page]). *)
Lemma not_found_precedence_witness :
  dispatch OwnerOnly test_objects (page_of "hello" AnonymousUser) [] =
    (DenyNotFound "User 'hello' does not exist.", [])
  ∧ dispatch OwnerOrStaff test_objects (page_of "hello" AnonymousUser) [] =
    (DenyNotFound "User 'hello' does not exist.", []).
Proof.
  apply (proj1 (not_found_precedence test_objects (page_of "hello" AnonymousUser) [])).
  vm_compute. reflexivity.
Defined.

(** ** The owner policies when the owner is known *)

(** C2. When the owner reference names a user of the table, [OwnerOrStaff]
    decides in this order: Allow when the principal's name is the owner's;
    otherwise Allow when the principal is staff; otherwise DenyForbidden,
    with the class's message ("You are not the owner of the page nor a
    staff user. You cannot view it.", which the specification shortens to
    "not the owner nor staff."). *)
Theorem OwnerOrStaff_order (objects : gset string) (self : View) (name : string) :
  owner_ref self = Some name →
  name ∈ objects →
  evaluate OwnerOrStaff objects self =
    if decide (get_username (user (request self)) = name) then Allow
    else if is_staff (user (request self)) then Allow
    else DenyForbidden OwnerOrStaffMixin.permission_denied_message.
Proof.
  intros Href Hin. known_owner Href Hin.
  unfold evaluate, dispatch; simpl.
  rewrite OwnerOrStaffMixin_known by exact Hex.
  rewrite Href, py_eq_Some.
  case_bool_decide as Heq; simpl.
  - rewrite decide_True by exact Heq. done.
  - rewrite decide_False by exact Heq.
    destruct (is_staff _); done.
Qed.

(** A normal user on somebody else's page
    ([test_normal_user_access_other_user_existing_page]). *)
Lemma OwnerOrStaff_order_witness :
  evaluate OwnerOrStaff test_objects (page_of "other" owner) =
    DenyForbidden "You are not the owner of the page nor a staff user. You cannot view it.".
Proof.
  apply (OwnerOrStaff_order test_objects (page_of "other" owner) "other").
  - reflexivity.
  - by_computation.
Defined.

(** C3. When [OwnerOrStaff] lets in a staff principal who is not the owner
    (the owner being a user of the table), the log grows by exactly one
    record, at level INFO, made of the principal's name and the requested
    path; when it forbids a principal who is neither owner nor staff, the
    log is left as it was. *)
Theorem OwnerOrStaff_audit (objects : gset string) (self : View) (name : string)
    (log : list LogRecord) :
  owner_ref self = Some name →
  name ∈ objects →
  get_username (user (request self)) ≠ name →
  dispatch OwnerOrStaff objects self log =
    if is_staff (user (request self))
    then (Allow,
          (log ++ [mkLogRecord INFO
                     ("Staff user " +:+ get_username (user (request self))
                        +:+ " accessed '" +:+ path (request self) +:+ "' page")])%list)
    else (DenyForbidden OwnerOrStaffMixin.permission_denied_message, log).
Proof.
  intros Href Hin Hne. known_owner Href Hin.
  unfold dispatch; simpl.
  rewrite OwnerOrStaffMixin_known by exact Hex.
  rewrite Href, py_eq_Some, bool_decide_eq_false_2 by exact Hne.
  destruct (is_staff _); done.
Qed.

(** The staff user on somebody else's page
    ([test_staff_user_access_other_user_existing_page]). *)
Lemma OwnerOrStaff_audit_witness :
  dispatch OwnerOrStaff test_objects (page_of "other" staff) [] =
    (Allow, [mkLogRecord INFO "Staff user staff accessed '/rand' page"]).
Proof.
  apply (OwnerOrStaff_audit test_objects (page_of "other" staff) "other" []).
  - reflexivity.
  - by_computation.
  - by_computation.
Defined.

(** C10. A staff principal who is the owner of the page (the owner being a
    user of the table) is let in by the owner branch of [OwnerOrStaff], and
    nothing is logged: the log comes back as it was. *)
Theorem OwnerOrStaff_owner_branch_silent (objects : gset string) (self : View)
    (log : list LogRecord) :
  owner_ref self = Some (get_username (user (request self))) →
  get_username (user (request self)) ∈ objects →
  is_staff (user (request self)) = true →
  dispatch OwnerOrStaff objects self log = (Allow, log).
Proof.
  intros Href Hin _. known_owner Href Hin.
  unfold dispatch; simpl.
  rewrite OwnerOrStaffMixin_known by exact Hex.
  rewrite Href, py_eq_Some, bool_decide_eq_true_2 by reflexivity. done.
Qed.

(** The staff user on its own page
    ([test_staff_user_access_its_existing_page]). *)
Lemma OwnerOrStaff_owner_branch_silent_witness :
  dispatch OwnerOrStaff test_objects (page_of "staff" staff) [] = (Allow, []).
Proof.
  apply (OwnerOrStaff_owner_branch_silent test_objects (page_of "staff" staff) []).
  - reflexivity.
  - by_computation.
  - reflexivity.
Defined.

(** C4. When the owner reference names a user of the table, [OwnerOnly]
    answers Allow if and only if the principal's name is the owner's, and
    otherwise DenyForbidden with the class's message ("You are not the
    owner of the page. You cannot view it.", which the specification
    shortens to "not the owner."). *)
Theorem OwnerOnly_iff_owner (objects : gset string) (self : View) (name : string) :
  owner_ref self = Some name →
  name ∈ objects →
  (evaluate OwnerOnly objects self = Allow ↔ get_username (user (request self)) = name)
  ∧ evaluate OwnerOnly objects self =
      if decide (get_username (user (request self)) = name) then Allow
      else DenyForbidden OwnerMixin.permission_denied_message.
Proof.
  intros Href Hin. known_owner Href Hin.
  unfold evaluate, dispatch; simpl.
  rewrite OwnerMixin_known by exact Hex.
  rewrite Href, py_eq_Some.
  case_bool_decide as Heq; simpl.
  - rewrite decide_True by exact Heq. done.
  - rewrite decide_False by exact Heq.
    split; [|done]. split; [discriminate|done].
Qed.

(** A normal user on its own page ([test_normal_user_is_owner]) and on
    somebody else's. *)
Lemma OwnerOnly_iff_owner_witness :
  evaluate OwnerOnly test_objects (page_of "owner" owner) = Allow
  ∧ evaluate OwnerOnly test_objects (page_of "other" owner) =
      DenyForbidden "You are not the owner of the page. You cannot view it.".
Proof.
  split.
  - apply (OwnerOnly_iff_owner test_objects (page_of "owner" owner) "owner").
    + reflexivity.
    + by_computation.
  - apply (OwnerOnly_iff_owner test_objects (page_of "other" owner) "other").
    + reflexivity.
    + by_computation.
Defined.

(** ** The staff and superuser policies *)

(** C5, as the specification states it, fails: [StaffMixin.test_func] reads
    [is_staff] and nothing else, so a principal that is not authenticated
    but carries [is_staff] is let in. *)
Lemma StaffOnly_ignores_authentication :
  evaluate StaffOnly test_objects (page_of "owner" unauthenticated_staff) = Allow
  ∧ is_authenticated unauthenticated_staff && is_staff unauthenticated_staff = false.
Proof. split; reflexivity. Qed.

(** C5, amended. For every principal [StaffOnly] answers Allow if and only
    if [is_staff] is true, and otherwise DenyForbidden with the class's
    message ("You are not a staff user. ..."); whether the principal is
    authenticated is not looked at, and nothing is logged. For the
    principals whose [is_staff] is false whenever they are not
    authenticated, as Django's anonymous user, this is Allow if and only if
    the principal is authenticated and staff. *)
Theorem StaffOnly_iff_staff (objects : gset string) (self : View)
    (log : list LogRecord) :
  dispatch StaffOnly objects self log =
    (if is_staff (user (request self)) then Allow
     else DenyForbidden StaffMixin.permission_denied_message, log)
  ∧ (evaluate StaffOnly objects self = Allow ↔ is_staff (user (request self)) = true)
  ∧ ((is_authenticated (user (request self)) = false →
      is_staff (user (request self)) = false) →
     (evaluate StaffOnly objects self = Allow ↔
      is_authenticated (user (request self)) && is_staff (user (request self)) = true)).
Proof.
  unfold evaluate, dispatch, handle_no_permission; simpl.
  destruct (is_staff _), (is_authenticated _); simpl;
    repeat split; try done; intros; try discriminate.
  all: match goal with H : _ → _ |- _ => specialize (H eq_refl); discriminate end.
Qed.

(** The anonymous user and the staff user of the tests
    ([StaffUserRequiredMixinTest.test_anonymous], [test_staff_user]). *)
Lemma StaffOnly_iff_staff_witness :
  (evaluate StaffOnly test_objects (page_of "owner" AnonymousUser) = Allow ↔
   is_authenticated AnonymousUser && is_staff AnonymousUser = true)
  ∧ dispatch StaffOnly test_objects (page_of "owner" staff) [] = (Allow, []).
Proof.
  split.
  - apply (StaffOnly_iff_staff test_objects (page_of "owner" AnonymousUser) []).
    reflexivity.
  - apply (StaffOnly_iff_staff test_objects (page_of "owner" staff) []).
Defined.

(** C6, as the specification states it, fails for the same reason:
    [SuperuserMixin.test_func] reads [is_superuser] and nothing else. *)
Lemma SuperuserOnly_ignores_authentication :
  evaluate SuperuserOnly test_objects (page_of "owner" unauthenticated_staff) = Allow
  ∧ is_authenticated unauthenticated_staff && is_superuser unauthenticated_staff = false.
Proof. split; reflexivity. Qed.

(** C6, amended. For every principal [SuperuserOnly] answers Allow if and
    only if [is_superuser] is true, and otherwise DenyForbidden with the
    class's message ("You are not a superuser user. ..."); whether the
    principal is authenticated is not looked at, and nothing is logged. For
    the principals whose [is_superuser] is false whenever they are not
    authenticated, as Django's anonymous user, this is Allow if and only if
    the principal is authenticated and superuser. *)
Theorem SuperuserOnly_iff_superuser (objects : gset string) (self : View)
    (log : list LogRecord) :
  dispatch SuperuserOnly objects self log =
    (if is_superuser (user (request self)) then Allow
     else DenyForbidden SuperuserMixin.permission_denied_message, log)
  ∧ (evaluate SuperuserOnly objects self = Allow ↔
     is_superuser (user (request self)) = true)
  ∧ ((is_authenticated (user (request self)) = false →
      is_superuser (user (request self)) = false) →
     (evaluate SuperuserOnly objects self = Allow ↔
      is_authenticated (user (request self)) && is_superuser (user (request self)) = true)).
Proof.
  unfold evaluate, dispatch, handle_no_permission; simpl.
  destruct (is_superuser _), (is_authenticated _); simpl;
    repeat split; try done; intros; try discriminate.
  all: match goal with H : _ → _ |- _ => specialize (H eq_refl); discriminate end.
Qed.

(** The anonymous user, and a staff user who is not superuser
    ([SuperUserRequiredMixinTest.test_anonymous], [test_staff_user]). *)
Lemma SuperuserOnly_iff_superuser_witness :
  (evaluate SuperuserOnly test_objects (page_of "owner" AnonymousUser) = Allow ↔
   is_authenticated AnonymousUser && is_superuser AnonymousUser = true)
  ∧ dispatch SuperuserOnly test_objects (page_of "owner" staff) [] =
      (DenyForbidden
         "You are not a superuser user. You do not have the right to view this page.",
       []).
Proof.
  split.
  - apply (SuperuserOnly_iff_superuser test_objects (page_of "owner" AnonymousUser) []).
    reflexivity.
  - apply (SuperuserOnly_iff_superuser test_objects (page_of "owner" staff) []).
Defined.

(** ** The lookup key *)

(** C7. With [owner_kwargs] unset, [OwnerOnly] and [OwnerOrStaff] read the
    request field named "username"; with a key configured they read the
    field of that name, and no other. The decision is one and the same
    function of the value read, whichever the key: no value, or the name of
    nobody, gives DenyNotFound; the name of a stored user gives Allow to
    that user (and, for [OwnerOrStaff], to staff, with one record logged)
    and DenyForbidden to the others. So a view with the default key and a
    view with a custom key, serving the same request, get the same verdict
    and the same log as soon as the values they read are the same. *)
Theorem owner_lookup_key (objects : gset string) (req : HttpRequest)
    (kw kw' : gmap string string) (key : string) (log : list LogRecord) :
  let owner_only (v : option string) : Verdict * list LogRecord :=
    match v with
    | None => (DenyNotFound "User 'None' does not exist.", log)
    | Some name =>
        if decide (name ∈ objects)
        then (if decide (get_username (user req) = name) then Allow
              else DenyForbidden OwnerMixin.permission_denied_message, log)
        else (DenyNotFound ("User '" +:+ name +:+ "' does not exist."), log)
    end in
  let owner_or_staff (v : option string) : Verdict * list LogRecord :=
    match v with
    | None => (DenyNotFound "User 'None' does not exist.", log)
    | Some name =>
        if decide (name ∈ objects)
        then if decide (get_username (user req) = name) then (Allow, log)
             else if is_staff (user req)
             then (Allow,
                   (log ++ [mkLogRecord INFO
                              ("Staff user " +:+ get_username (user req)
                                 +:+ " accessed '" +:+ path req +:+ "' page")])%list)
             else (DenyForbidden OwnerOrStaffMixin.permission_denied_message, log)
        else (DenyNotFound ("User '" +:+ name +:+ "' does not exist."), log)
    end in
  OwnerMixin.get_owner_kwargs (mkView req kw None) = "username"
  ∧ OwnerOrStaffMixin.get_owner_kwargs (mkView req kw None) = "username"
  ∧ OwnerMixin.get_owner_kwargs (mkView req kw' (Some key)) = key
  ∧ OwnerOrStaffMixin.get_owner_kwargs (mkView req kw' (Some key)) = key
  ∧ dispatch OwnerOnly objects (mkView req kw None) log = owner_only (kw !! "username")
  ∧ dispatch OwnerOnly objects (mkView req kw' (Some key)) log = owner_only (kw' !! key)
  ∧ dispatch OwnerOrStaff objects (mkView req kw None) log =
      owner_or_staff (kw !! "username")
  ∧ dispatch OwnerOrStaff objects (mkView req kw' (Some key)) log =
      owner_or_staff (kw' !! key)
  ∧ (kw !! "username" = kw' !! key →
     dispatch OwnerOnly objects (mkView req kw None) log =
       dispatch OwnerOnly objects (mkView req kw' (Some key)) log
     ∧ dispatch OwnerOrStaff objects (mkView req kw None) log =
       dispatch OwnerOrStaff objects (mkView req kw' (Some key)) log).
Proof.
  intros owner_only owner_or_staff.
  assert (Honly : ∀ kws k,
            dispatch OwnerOnly objects (mkView req kws k) log =
              owner_only (kws !! OwnerMixin.get_owner_kwargs (mkView req kws k))).
  { intros kws k. subst owner_only. cbv beta.
    unfold dispatch, OwnerOnly, OwnerMixin.test_func, handle_no_permission.
    cbn [test_func raise_exception permission_denied_message kwargs request].
    destruct (kws !! OwnerMixin.get_owner_kwargs (mkView req kws k)) as [name|];
      [|reflexivity].
    rewrite py_eq_Some. cbn [filter_username_exists].
    case_bool_decide as Hin; cbn [negb].
    + rewrite decide_True by exact Hin.
      case_bool_decide as Heq.
      * rewrite decide_True by exact Heq. reflexivity.
      * rewrite decide_False by exact Heq. reflexivity.
    + rewrite decide_False by exact Hin. reflexivity. }
  assert (Hstaff : ∀ kws k,
            dispatch OwnerOrStaff objects (mkView req kws k) log =
              owner_or_staff
                (kws !! OwnerOrStaffMixin.get_owner_kwargs (mkView req kws k))).
  { intros kws k. subst owner_or_staff. cbv beta.
    unfold dispatch, OwnerOrStaff, OwnerOrStaffMixin.test_func, handle_no_permission.
    cbn [test_func raise_exception permission_denied_message kwargs request].
    destruct (kws !! OwnerOrStaffMixin.get_owner_kwargs (mkView req kws k))
      as [name|]; [|reflexivity].
    rewrite py_eq_Some. cbn [filter_username_exists].
    case_bool_decide as Hin; cbn [negb].
    + rewrite decide_True by exact Hin.
      case_bool_decide as Heq.
      * rewrite decide_True by exact Heq. reflexivity.
      * rewrite decide_False by exact Heq.
        destruct (is_staff (user req)); reflexivity.
    + rewrite decide_False by exact Hin. reflexivity. }
  do 4 (split; [reflexivity|]).
  split; [exact (Honly kw None)|]. split; [exact (Honly kw' (Some key))|].
  split; [exact (Hstaff kw None)|]. split; [exact (Hstaff kw' (Some key))|].
  intros Hread. rewrite (Honly kw None), (Honly kw' (Some key)).
  rewrite (Hstaff kw None), (Hstaff kw' (Some key)).
  change (OwnerMixin.get_owner_kwargs (mkView req kw None)) with "username".
  change (OwnerMixin.get_owner_kwargs (mkView req kw' (Some key))) with key.
  change (OwnerOrStaffMixin.get_owner_kwargs (mkView req kw None)) with "username".
  change (OwnerOrStaffMixin.get_owner_kwargs (mkView req kw' (Some key))) with key.
  rewrite Hread. split; reflexivity.
Qed.

(** The page of "other" asked by the staff user, once under the default
    key and once under the key "user" ([test_get_owner_kwargs_not_None]). *)
Lemma owner_lookup_key_witness :
  dispatch OwnerOnly test_objects (page_of "other" staff) [] =
    dispatch OwnerOnly test_objects
      (mkView (mkRequest staff "/rand") {["user" := "other"]} (Some "user")) []
  ∧ dispatch OwnerOrStaff test_objects (page_of "other" staff) [] =
    dispatch OwnerOrStaff test_objects
      (mkView (mkRequest staff "/rand") {["user" := "other"]} (Some "user")) [].
Proof.
  pose proof (owner_lookup_key test_objects (mkRequest staff "/rand")
                {["username" := "other"]} {["user" := "other"]} "user" []) as Hkey.
  cbv zeta in Hkey. destruct Hkey as (_ & _ & _ & _ & _ & _ & _ & _ & Hsame).
  apply Hsame. vm_compute. reflexivity.
Defined.

(** ** The verdicts *)

(** C8. Whatever the request and the user table, each of the four policies
    ends in exactly one of Allow, DenyForbidden and DenyNotFound (never in
    the redirect to the login page, the one other way Django's dispatch
    can end); [StaffOnly] and [SuperuserOnly] never end in DenyNotFound. *)
Theorem three_verdicts (objects : gset string) (self : View) (log : list LogRecord) :
  verdict_count (dispatch StaffOnly objects self log).1 = 1
  ∧ verdict_count (dispatch SuperuserOnly objects self log).1 = 1
  ∧ verdict_count (dispatch OwnerOnly objects self log).1 = 1
  ∧ verdict_count (dispatch OwnerOrStaff objects self log).1 = 1
  ∧ is_DenyNotFound (dispatch StaffOnly objects self log).1 = false
  ∧ is_DenyNotFound (dispatch SuperuserOnly objects self log).1 = false.
Proof.
  unfold dispatch, handle_no_permission; simpl.
  unfold StaffMixin.test_func, SuperuserMixin.test_func, ret.
  repeat split.
  - destruct (is_staff _); reflexivity.
  - destruct (is_superuser _); reflexivity.
  - destruct (filter_username_exists objects (owner_ref self)) eqn:Hex.
    + rewrite OwnerMixin_known by exact Hex. destruct (py_eq _ _); reflexivity.
    + rewrite OwnerMixin_unknown by exact Hex. reflexivity.
  - destruct (filter_username_exists objects (owner_ref self)) eqn:Hex.
    + rewrite OwnerOrStaffMixin_known by exact Hex.
      destruct (py_eq _ _); [reflexivity|].
      destruct (is_staff _); reflexivity.
    + rewrite OwnerOrStaffMixin_unknown by exact Hex. reflexivity.
  - destruct (is_staff _); reflexivity.
  - destruct (is_superuser _); reflexivity.
Qed.

(** ** The anonymous user *)

(** C9, as the specification states it, fails on one owner reference: the
    anonymous user's name is the empty string, so when the reference is the
    empty string and a row of the user table has that name, the comparison
    of names succeeds and both owner policies let the anonymous user in. *)
Lemma anonymous_owner_of_blank :
  is_authenticated AnonymousUser = false
  ∧ filter_username_exists objects_with_blank (owner_ref (page_of "" AnonymousUser)) = true
  ∧ dispatch OwnerOnly objects_with_blank (page_of "" AnonymousUser) [] = (Allow, [])
  ∧ dispatch OwnerOrStaff objects_with_blank (page_of "" AnonymousUser) [] = (Allow, []).
Proof. repeat split; vm_compute; reflexivity. Qed.

(** C9, amended. For the anonymous principal (empty name, not staff, as
    Django's [AnonymousUser]) and every owner reference that names a user
    of the table and is not the empty string, [OwnerOnly] and
    [OwnerOrStaff] answer DenyForbidden, each with its class's message, and
    log nothing: neither DenyNotFound nor a redirect to the login page. *)
Theorem anonymous_forbidden (objects : gset string) (self : View) (name : string)
    (log : list LogRecord) :
  get_username (user (request self)) = "" →
  is_staff (user (request self)) = false →
  owner_ref self = Some name →
  name ∈ objects →
  name ≠ "" →
  dispatch OwnerOnly objects self log =
    (DenyForbidden OwnerMixin.permission_denied_message, log)
  ∧ dispatch OwnerOrStaff objects self log =
    (DenyForbidden OwnerOrStaffMixin.permission_denied_message, log).
Proof.
  intros Hname Hstaff Href Hin Hne. known_owner Href Hin.
  unfold dispatch; simpl.
  rewrite OwnerMixin_known, OwnerOrStaffMixin_known by exact Hex.
  rewrite Href, py_eq_Some, Hname, Hstaff.
  rewrite bool_decide_eq_false_2 by (intros Heq; apply Hne; symmetry; exact Heq).
  done.
Qed.

(** The anonymous user on the page of "owner"
    ([test_anonymous_access_other_user_existing_page]). *)
Lemma anonymous_forbidden_witness :
  dispatch OwnerOnly test_objects (page_of "owner" AnonymousUser) [] =
    (DenyForbidden "You are not the owner of the page. You cannot view it.", [])
  ∧ dispatch OwnerOrStaff test_objects (page_of "owner" AnonymousUser) [] =
    (DenyForbidden "You are not the owner of the page nor a staff user. You cannot view it.",
     []).
Proof.
  apply (anonymous_forbidden test_objects (page_of "owner" AnonymousUser) "owner" []).
  - reflexivity.
  - reflexivity.
  - reflexivity.
  - by_computation.
  - by_computation.
Defined.

(** ** Further properties of the mixins *)

(** A log with one more record is another log. *)
Lemma log_snoc_ne (log : list LogRecord) (r : LogRecord) :
  (log ++ [r])%list ≠ log.
Proof.
  intros Heq. apply (f_equal length) in Heq.
  rewrite length_app in Heq. simpl in Heq. lia.
Qed.

(** X1. The log is append-only and never read: for each of the four
    policies, evaluating a request after some records were logged gives the
    verdict of an evaluation from the empty log, and the earlier records
    followed by what that evaluation logs. *)
Theorem dispatch_appends (objects : gset string) (self : View) (log : list LogRecord) :
  dispatch StaffOnly objects self log =
    ((dispatch StaffOnly objects self []).1,
     (log ++ (dispatch StaffOnly objects self []).2)%list)
  ∧ dispatch SuperuserOnly objects self log =
    ((dispatch SuperuserOnly objects self []).1,
     (log ++ (dispatch SuperuserOnly objects self []).2)%list)
  ∧ dispatch OwnerOnly objects self log =
    ((dispatch OwnerOnly objects self []).1,
     (log ++ (dispatch OwnerOnly objects self []).2)%list)
  ∧ dispatch OwnerOrStaff objects self log =
    ((dispatch OwnerOrStaff objects self []).1,
     (log ++ (dispatch OwnerOrStaff objects self []).2)%list).
Proof.
  unfold dispatch; simpl.
  unfold StaffMixin.test_func, SuperuserMixin.test_func, ret.
  repeat split.
  - destruct (is_staff _); simpl; rewrite app_nil_r; reflexivity.
  - destruct (is_superuser _); simpl; rewrite app_nil_r; reflexivity.
  - destruct (filter_username_exists objects (owner_ref self)) eqn:Hex.
    + rewrite !OwnerMixin_known by exact Hex.
      destruct (py_eq _ _); simpl; rewrite app_nil_r; reflexivity.
    + rewrite !OwnerMixin_unknown by exact Hex. simpl. rewrite app_nil_r. reflexivity.
  - destruct (filter_username_exists objects (owner_ref self)) eqn:Hex.
    + rewrite !OwnerOrStaffMixin_known by exact Hex.
      destruct (py_eq _ _); simpl; [rewrite app_nil_r; reflexivity|].
      destruct (is_staff _); simpl; [reflexivity|rewrite app_nil_r; reflexivity].
    + rewrite !OwnerOrStaffMixin_unknown by exact Hex. simpl.
      rewrite app_nil_r. reflexivity.
Qed.

(** X2. [StaffOnly], [SuperuserOnly] and [OwnerOnly] never log: whatever
    the verdict, the log comes back as it was. In particular a staff user
    turned away by [OwnerOnly] leaves no record. *)
Theorem only_OwnerOrStaff_logs (objects : gset string) (self : View)
    (log : list LogRecord) :
  (dispatch StaffOnly objects self log).2 = log
  ∧ (dispatch SuperuserOnly objects self log).2 = log
  ∧ (dispatch OwnerOnly objects self log).2 = log.
Proof.
  unfold dispatch; simpl.
  unfold StaffMixin.test_func, SuperuserMixin.test_func, ret.
  repeat split.
  - destruct (is_staff _); reflexivity.
  - destruct (is_superuser _); reflexivity.
  - destruct (filter_username_exists objects (owner_ref self)) eqn:Hex.
    + rewrite OwnerMixin_known by exact Hex. destruct (py_eq _ _); reflexivity.
    + rewrite OwnerMixin_unknown by exact Hex. reflexivity.
Qed.

(** X3. [OwnerOrStaff] changes the log in one situation only: the owner
    reference names a user of the table, the principal is not that user,
    and the principal is staff. Then the verdict is Allow and one record is
    added; in every other situation, and so on every denial, the log comes
    back as it was. *)
Theorem OwnerOrStaff_logs_iff (objects : gset string) (self : View)
    (log : list LogRecord) :
  ((dispatch OwnerOrStaff objects self log).2 ≠ log ↔
     filter_username_exists objects (owner_ref self) = true
     ∧ owner_ref self ≠ Some (get_username (user (request self)))
     ∧ is_staff (user (request self)) = true)
  ∧ ((dispatch OwnerOrStaff objects self log).2 ≠ log →
     dispatch OwnerOrStaff objects self log =
       (Allow,
        (log ++ [mkLogRecord INFO
                   ("Staff user " +:+ get_username (user (request self))
                      +:+ " accessed '" +:+ path (request self) +:+ "' page")])%list)).
Proof.
  unfold dispatch; simpl.
  destruct (filter_username_exists objects (owner_ref self)) eqn:Hex.
  - rewrite OwnerOrStaffMixin_known by exact Hex.
    unfold py_eq. case_bool_decide as Href; simpl.
    + split; [|done]. split; [done|]. intros (_ & Hne & _). done.
    + destruct (is_staff _); simpl.
      * split; [|done]. split; [done|]. intros _. apply log_snoc_ne.
      * split; [|done]. split; [done|]. intros (_ & _ & Hst). discriminate.
  - rewrite OwnerOrStaffMixin_unknown by exact Hex. simpl.
    split; [|done]. split; [done|]. intros (Hf & _). discriminate.
Qed.

(** X4. [OwnerOrStaff] only widens [OwnerOnly]: whatever [OwnerOnly]
    allows, [OwnerOrStaff] allows; the two answer DenyNotFound on the same
    requests and with the same reason; and for a principal who is not staff
    the one allows exactly when the other does. *)
Theorem OwnerOrStaff_widens_OwnerOnly (objects : gset string) (self : View) :
  (evaluate OwnerOnly objects self = Allow → evaluate OwnerOrStaff objects self = Allow)
  ∧ (∀ reason, evaluate OwnerOnly objects self = DenyNotFound reason ↔
               evaluate OwnerOrStaff objects self = DenyNotFound reason)
  ∧ (is_staff (user (request self)) = false →
     (evaluate OwnerOnly objects self = Allow ↔ evaluate OwnerOrStaff objects self = Allow)).
Proof.
  unfold evaluate, dispatch, handle_no_permission; simpl.
  destruct (filter_username_exists objects (owner_ref self)) eqn:Hex.
  - rewrite OwnerMixin_known, OwnerOrStaffMixin_known by exact Hex.
    destruct (py_eq _ _); simpl; [done|].
    destruct (is_staff _); simpl; repeat split; try done; intros; discriminate.
  - rewrite OwnerMixin_unknown, OwnerOrStaffMixin_unknown by exact Hex. done.
Qed.

(** The normal user "owner" on its own page
    ([test_normal_user_access_its_existing_page]). *)
Lemma OwnerOrStaff_widens_OwnerOnly_witness :
  evaluate OwnerOrStaff test_objects (page_of "owner" owner) = Allow.
Proof.
  apply (proj1 (OwnerOrStaff_widens_OwnerOnly test_objects (page_of "owner" owner))).
  vm_compute. reflexivity.
Defined.

(** X5. A request that carries no value under the lookup key is answered
    DenyNotFound by both owner policies, with the reason
    "User 'None' does not exist.", whoever asks and whatever the user table
    holds; nothing is logged. So a view configured with a key the URL does
    not capture answers 404 to everybody. *)
Theorem missing_key_not_found (objects : gset string) (self : View)
    (log : list LogRecord) :
  owner_ref self = None →
  dispatch OwnerOnly objects self log = (DenyNotFound "User 'None' does not exist.", log)
  ∧ dispatch OwnerOrStaff objects self log =
      (DenyNotFound "User 'None' does not exist.", log).
Proof.
  intros Href.
  assert (Hex : filter_username_exists objects (owner_ref self) = false)
    by (rewrite Href; reflexivity).
  unfold dispatch; simpl.
  rewrite OwnerMixin_unknown, OwnerOrStaffMixin_unknown by exact Hex.
  rewrite Href. done.
Qed.

(** The owner asks for its own page through a view whose key is "user",
    while the URL captured the name under "username". *)
Lemma missing_key_not_found_witness :
  dispatch OwnerOnly test_objects
    (mkView (mkRequest owner "/rand") {["username" := "owner"]} (Some "user")) [] =
    (DenyNotFound "User 'None' does not exist.", [])
  ∧ dispatch OwnerOrStaff test_objects
    (mkView (mkRequest owner "/rand") {["username" := "owner"]} (Some "user")) [] =
    (DenyNotFound "User 'None' does not exist.", []).
Proof.
  apply (missing_key_not_found test_objects
           (mkView (mkRequest owner "/rand") {["username" := "owner"]} (Some "user")) []).
  vm_compute. reflexivity.
Defined.

(** X6. The owner policies read one keyword argument and no other: adding,
    changing or removing an argument under any other name leaves the
    verdict and the log as they were. *)
Theorem other_kwargs_ignored (objects : gset string) (self : View) (k v : string)
    (log : list LogRecord) :
  k ≠ OwnerMixin.get_owner_kwargs self →
  dispatch OwnerOnly objects
    (mkView (request self) (<[k:=v]> (kwargs self)) (owner_kwargs self)) log =
    dispatch OwnerOnly objects self log
  ∧ dispatch OwnerOnly objects
    (mkView (request self) (delete k (kwargs self)) (owner_kwargs self)) log =
    dispatch OwnerOnly objects self log
  ∧ dispatch OwnerOrStaff objects
    (mkView (request self) (<[k:=v]> (kwargs self)) (owner_kwargs self)) log =
    dispatch OwnerOrStaff objects self log
  ∧ dispatch OwnerOrStaff objects
    (mkView (request self) (delete k (kwargs self)) (owner_kwargs self)) log =
    dispatch OwnerOrStaff objects self log.
Proof.
  intros Hne.
  unfold dispatch, OwnerOnly, OwnerOrStaff, OwnerMixin.test_func,
    OwnerOrStaffMixin.test_func, OwnerOrStaffMixin.get_owner_kwargs.
  unfold OwnerMixin.get_owner_kwargs in *.
  cbn [test_func kwargs owner_kwargs request].
  rewrite lookup_insert_ne, lookup_delete_ne by exact Hne.
  done.
Qed.

(** The page of "other" asked by "owner", with a page number added to the
    keyword arguments. *)
Lemma other_kwargs_ignored_witness :
  dispatch OwnerOnly test_objects
    (mkView (mkRequest owner "/rand") (<["page":="2"]> {["username" := "other"]}) None) [] =
    dispatch OwnerOnly test_objects (page_of "other" owner) [].
Proof.
  apply (other_kwargs_ignored test_objects (page_of "other" owner) "page" "2" []).
  by_computation.
Defined.

(** X7. The owner policies consult the user table about one name only, the
    one the owner reference gives: two tables that agree on whether that
    name is stored give the same verdict and the same log. *)
Theorem table_read_at_owner (objects objects' : gset string) (self : View)
    (log : list LogRecord) :
  (∀ name, owner_ref self = Some name → (name ∈ objects ↔ name ∈ objects')) →
  dispatch OwnerOnly objects self log = dispatch OwnerOnly objects' self log
  ∧ dispatch OwnerOrStaff objects self log = dispatch OwnerOrStaff objects' self log.
Proof.
  intros Hagree.
  assert (Hex : filter_username_exists objects (owner_ref self) =
                filter_username_exists objects' (owner_ref self)).
  { destruct (owner_ref self) as [name|]; simpl; [|reflexivity].
    apply bool_decide_ext, Hagree. reflexivity. }
  unfold dispatch, OwnerOnly, OwnerOrStaff, OwnerMixin.test_func,
    OwnerOrStaffMixin.test_func.
  cbn [test_func]. rewrite !owner_ref_OwnerOrStaff.
  fold (owner_ref self). rewrite Hex. done.
Qed.

(** The page of "other", with and without the rows of the other users. *)
Lemma table_read_at_owner_witness :
  dispatch OwnerOnly test_objects (page_of "other" owner) [] =
    dispatch OwnerOnly {["other"]} (page_of "other" owner) []
  ∧ dispatch OwnerOrStaff test_objects (page_of "other" owner) [] =
    dispatch OwnerOrStaff {["other"]} (page_of "other" owner) [].
Proof.
  apply (table_read_at_owner test_objects {["other"]} (page_of "other" owner) []).
  intros name Href. vm_compute in Href. injection Href as <-.
  split; intros _; by_computation.
Defined.

(** X8. Storing more users never takes an answer back: when the table
    grows, a verdict of the owner policies that was Allow or DenyForbidden
    stays what it was, with the same log; only DenyNotFound can change. *)
Theorem table_growth_keeps_verdict (objects objects' : gset string) (self : View)
    (log : list LogRecord) :
  objects ⊆ objects' →
  (is_DenyNotFound (dispatch OwnerOnly objects self log).1 = false →
   dispatch OwnerOnly objects' self log = dispatch OwnerOnly objects self log)
  ∧ (is_DenyNotFound (dispatch OwnerOrStaff objects self log).1 = false →
     dispatch OwnerOrStaff objects' self log = dispatch OwnerOrStaff objects self log).
Proof.
  intros Hsub.
  destruct (filter_username_exists objects (owner_ref self)) eqn:Hex.
  - assert (Hex' : filter_username_exists objects' (owner_ref self) = true).
    { apply filter_username_exists_true in Hex as (name & Href & Hin).
      apply filter_username_exists_true. exists name. split; [exact Href|].
      apply Hsub, Hin. }
    unfold dispatch; simpl.
    rewrite !OwnerMixin_known, !OwnerOrStaffMixin_known by assumption. done.
  - unfold dispatch; simpl.
    rewrite OwnerMixin_unknown, OwnerOrStaffMixin_unknown by exact Hex.
    simpl. split; intros; discriminate.
Qed.

(** "owner" on the page of "other", before and after "staff" is stored. *)
Lemma table_growth_keeps_verdict_witness :
  dispatch OwnerOnly test_objects (page_of "other" owner) [] =
    dispatch OwnerOnly {["owner"; "other"]} (page_of "other" owner) [].
Proof.
  apply (table_growth_keeps_verdict {["owner"; "other"]} test_objects
           (page_of "other" owner) []).
  - apply (bool_decide_unpack _). vm_compute. exact I.
  - vm_compute. reflexivity.
Defined.


(** X10. When the owner policies allow. [OwnerOnly] answers Allow exactly
    when the owner reference is the principal's own name and that name is
    stored in the user table; [OwnerOrStaff] exactly when the reference
    names a stored user and the principal is that user or is staff. A
    principal whose name is not stored is never allowed by [OwnerOnly]. *)
Theorem owner_policies_allow_iff (objects : gset string) (self : View) :
  (evaluate OwnerOnly objects self = Allow ↔
     owner_ref self = Some (get_username (user (request self)))
     ∧ get_username (user (request self)) ∈ objects)
  ∧ (evaluate OwnerOrStaff objects self = Allow ↔
     ∃ name, owner_ref self = Some name ∧ name ∈ objects
             ∧ (name = get_username (user (request self))
                ∨ is_staff (user (request self)) = true)).
Proof.
  unfold evaluate, dispatch, handle_no_permission; simpl.
  destruct (filter_username_exists objects (owner_ref self)) eqn:Hex.
  - rewrite OwnerMixin_known, OwnerOrStaffMixin_known by exact Hex.
    apply filter_username_exists_true in Hex as (name & Href & Hin).
    rewrite Href, py_eq_Some. case_bool_decide as Heq; simpl.
    + subst name. split; [done|]. split; [|done].
      intros _. exists (get_username (user (request self))). auto.
    + split.
      * split; [discriminate|]. intros ([= Hn] & _). congruence.
      * destruct (is_staff _); simpl.
        -- split; [|done]. intros _. exists name. auto.
        -- split; [discriminate|].
           intros (name' & [= <-] & _ & [Hn|Hst]); [congruence|discriminate].
  - rewrite OwnerMixin_unknown, OwnerOrStaffMixin_unknown by exact Hex. simpl.
    pose proof (proj1 (filter_username_exists_false _ _) Hex) as Hout. clear Hex.
    rename Hout into Hex.
    split; (split; [discriminate|]).
    + intros (Href & Hin). exfalso. exact (Hex _ Href Hin).
    + intros (name & Href & Hin & _). exfalso. exact (Hex _ Href Hin).
Qed.

(** ** The reason of a DenyNotFound *)

Lemma append_length (a b : string) :
  String.length (a +:+ b) = String.length a + String.length b.
Proof. induction a as [|c a IH]; simpl; [reflexivity|]. rewrite IH. reflexivity. Qed.

(** A common ending can be cancelled. *)
Lemma append_inj_l (a b suffix : string) : a +:+ suffix = b +:+ suffix → a = b.
Proof.
  revert b. induction a as [|c a IH]; intros [|d b] Heq.
  - reflexivity.
  - apply (f_equal String.length) in Heq.
    rewrite !append_length in Heq. simpl in Heq. lia.
  - apply (f_equal String.length) in Heq.
    rewrite !append_length in Heq. simpl in Heq. lia.
  - injection Heq as -> Heq. f_equal. apply IH. exact Heq.
Qed.

(** X11. The reason of a DenyNotFound tells the reference apart: two
    requests the owner policies answer DenyNotFound get the same reason
    exactly when their references print the same. A missing value prints as
    "None", so a request without the key and a request for an unknown user
    named "None" get the same reason. *)
Theorem not_found_reason_inj (objects objects' : gset string) (self self' : View)
    (log log' : list LogRecord) :
  filter_username_exists objects (owner_ref self) = false →
  filter_username_exists objects' (owner_ref self') = false →
  ((dispatch OwnerOnly objects self log).1 = (dispatch OwnerOnly objects' self' log').1 ↔
     py_str (owner_ref self) = py_str (owner_ref self'))
  ∧ ((dispatch OwnerOrStaff objects self log).1 =
       (dispatch OwnerOrStaff objects' self' log').1 ↔
     py_str (owner_ref self) = py_str (owner_ref self')).
Proof.
  intros Hex Hex'. unfold dispatch; simpl.
  rewrite !OwnerMixin_unknown, !OwnerOrStaffMixin_unknown by assumption. simpl.
  assert (Hinj : DenyNotFound ("User '" +:+ py_str (owner_ref self) +:+ "' does not exist.") =
                 DenyNotFound ("User '" +:+ py_str (owner_ref self') +:+ "' does not exist.")
                 ↔ py_str (owner_ref self) = py_str (owner_ref self')).
  { split.
    - intros [= Heq].
      exact (append_inj_l (py_str (owner_ref self)) (py_str (owner_ref self'))
               "' does not exist." Heq).
    - intros ->. reflexivity. }
  split; exact Hinj.
Qed.

(** A request without the key and a request for the unknown name "None". *)
Lemma not_found_reason_inj_witness :
  (dispatch OwnerOnly test_objects
     (mkView (mkRequest owner "/rand") ∅ None) []).1 =
  (dispatch OwnerOnly test_objects (page_of "None" owner) []).1.
Proof.
  apply (not_found_reason_inj test_objects test_objects
           (mkView (mkRequest owner "/rand") ∅ None) (page_of "None" owner) [] []).
  - vm_compute. reflexivity.
  - vm_compute. reflexivity.
  - vm_compute. reflexivity.
Defined.

(** ** The test helper *)

Section helper_properties.
Context {E DB Obj : Type}.

Section any_class.
Context {F : Type} `{Countable F}.
Variable objects_call : helper.ManagerCall F → DB → (Obj + E) * DB.



End any_class.

Variable objects_call : helper.ManagerCall helper.UserField → DB → (Obj + E) * DB.

Lemma UserHelper_defaults_lookup (kwargs : gmap helper.UserField helper.PyVal)
    (k : helper.UserField) (dv : helper.PyVal) :
  helper.UserHelper_defaults !! k = Some dv →
  (kwargs ∪ helper.UserHelper_defaults) !! k = Some (default dv (kwargs !! k)).
Proof.
  intros Hd. rewrite lookup_union, Hd. destruct (kwargs !! k); reflexivity.
Qed.

Lemma UserHelper_base_init (kwargs : gmap helper.UserField helper.PyVal) :
  helper.__init__ helper.UserHelper kwargs =
    (helper.Returns (helper.mkInstance (kwargs ∪ helper.UserHelper_defaults) None)
     : helper.Outcome helper.UserField E (helper.Instance helper.UserField Obj)).
Proof.
  unfold helper.__init__, helper.get_defaults.
  change (helper.defaults helper.UserHelper) with (helper.ADict helper.UserHelper_defaults).
  cbn [helper.attr_truthy].
  rewrite bool_decide_eq_false_2; [reflexivity|].
  intros Hempty. apply (f_equal (λ d, d !! helper.f_username)) in Hempty.
  vm_compute in Hempty. discriminate.
Qed.

Lemma given_and_true_default (kwargs : gmap helper.UserField helper.PyVal)
    (k : helper.UserField) :
  helper.truthy (default (helper.VBool false) (kwargs !! k)) = helper.given_and_true kwargs k.
Proof. unfold helper.given_and_true. destruct (kwargs !! k); reflexivity. Qed.

Ltac overlay_lookups kwargs :=
  rewrite ?(UserHelper_defaults_lookup kwargs helper.f_username (helper.VStr "toto")),
    ?(UserHelper_defaults_lookup kwargs helper.f_password (helper.VStr "hello-world")),
    ?(UserHelper_defaults_lookup kwargs helper.f_first_name (helper.VStr "Toto")),
    ?(UserHelper_defaults_lookup kwargs helper.f_last_name (helper.VStr "Tata")),
    ?(UserHelper_defaults_lookup kwargs helper.f_email (helper.VStr "toto@example.com")),
    ?(UserHelper_defaults_lookup kwargs helper.f_is_staff (helper.VBool false)),
    ?(UserHelper_defaults_lookup kwargs helper.f_is_superuser (helper.VBool false))
    by (vm_compute; reflexivity).

Ltac field_lookups :=
  repeat first
    [ rewrite lookup_insert_eq
    | rewrite lookup_insert_ne by (let Heq := fresh in intros Heq; discriminate Heq) ];
  rewrite ?lookup_empty.

(** What [UserHelper(kwargs)] does: it builds the attributes, makes up one
    call and hands it to the manager. The field [is_staff] is [True] as
    soon as a true [is_staff] or a true [is_superuser] is among the
    keywords. *)
Lemma UserHelper_init_runs (kwargs : gmap helper.UserField helper.PyVal) (db : DB) :
  helper.UserHelper_init objects_call kwargs db =
    helper.set_object objects_call
      (helper.mkInstance
         (if helper.given_and_true kwargs helper.f_is_staff
             || helper.given_and_true kwargs helper.f_is_superuser
          then <[helper.f_is_staff := helper.VBool true]>
                 (kwargs ∪ helper.UserHelper_defaults)
          else kwargs ∪ helper.UserHelper_defaults)
         None)
      (helper.mkCall
         (if helper.given_and_true kwargs helper.f_is_superuser
          then helper.create_superuser else helper.create_user)
         "auth.User"
         (helper.py_dict
            [(helper.f_username, default (helper.VStr "toto") (kwargs !! helper.f_username));
             (helper.f_password,
              default (helper.VStr "hello-world") (kwargs !! helper.f_password));
             (helper.f_first_name,
              default (helper.VStr "Toto") (kwargs !! helper.f_first_name));
             (helper.f_last_name,
              default (helper.VStr "Tata") (kwargs !! helper.f_last_name));
             (helper.f_email,
              default (helper.VStr "toto@example.com") (kwargs !! helper.f_email));
             (helper.f_is_staff,
              if helper.given_and_true kwargs helper.f_is_staff
                 || helper.given_and_true kwargs helper.f_is_superuser
              then helper.VBool true
              else default (helper.VBool false) (kwargs !! helper.f_is_staff))]))
      db.
Proof.
  unfold helper.UserHelper_init. rewrite UserHelper_base_init.
  cbn [helper.attrs helper._object].
  pose proof (given_and_true_default kwargs helper.f_is_superuser) as Hsu.
  unfold helper.UserHelper_create, helper.dict_self.
  change (helper.get_model helper.UserHelper) with
    (helper.Returns "auth.User" : helper.Outcome helper.UserField E string).
  change (helper.get_iter_fields helper.UserHelper) with
    (helper.Returns [helper.f_username; helper.f_password; helper.f_first_name;
                     helper.f_last_name; helper.f_email; helper.f_is_staff]
     : helper.Outcome helper.UserField E (list helper.UserField)).
  cbn [mbind helper.Outcome_bind helper.getattrs].
  destruct (helper.given_and_true kwargs helper.f_is_staff
            || helper.given_and_true kwargs helper.f_is_superuser); cbn [helper.attrs].
  - rewrite !lookup_insert_ne by (intros Heq; discriminate Heq).
    rewrite lookup_insert_eq.
    overlay_lookups kwargs.
    cbn [mbind mret helper.Outcome_bind helper.Outcome_ret].
    rewrite Hsu. reflexivity.
  - overlay_lookups kwargs.
    cbn [mbind mret helper.Outcome_bind helper.Outcome_ret].
    rewrite Hsu. reflexivity.
Qed.

(** The table of defaults is used through its lookups only. *)
#[local] Opaque helper.UserHelper_defaults.

(** X14. The attributes of a [UserHelper]. The constructor builds the
    seven attributes of the defaults, each with the keyword's value when
    one was given and the default otherwise, except [is_staff], which is
    [True] as soon as a true [is_staff] or a true [is_superuser] was given;
    it then asks the manager for the row. It returns the instance with
    these attributes when the manager returns an object, and lets the
    manager's exception through otherwise ([set_object]). *)
Theorem UserHelper_attributes (kwargs : gmap helper.UserField helper.PyVal) :
  ∃ (call : helper.ManagerCall helper.UserField) (A : gmap helper.UserField helper.PyVal),
    (∀ db, helper.UserHelper_init objects_call kwargs db =
           helper.set_object objects_call (helper.mkInstance A None) call db)
    ∧ (∀ f : helper.UserField, is_Some (A !! f))
    ∧ ∀ f : helper.UserField, A !! f =
        if decide (f = helper.f_is_staff
                   ∧ helper.given_and_true kwargs helper.f_is_staff
                     || helper.given_and_true kwargs helper.f_is_superuser = true)
        then Some (helper.VBool true)
        else match kwargs !! f with
             | Some v => Some v
             | None => helper.UserHelper_defaults !! f
             end.
Proof.
  eexists _, _. split; [intros db; apply UserHelper_init_runs|].
  assert (Hdef : ∀ f : helper.UserField, is_Some (helper.UserHelper_defaults !! f)).
  { intros []; eexists; vm_compute; reflexivity. }
  assert (Hall : ∀ f : helper.UserField,
            is_Some ((kwargs ∪ helper.UserHelper_defaults) !! f)).
  { intros f. rewrite lookup_union. destruct (Hdef f) as [dv ->].
    destruct (kwargs !! f); eexists; reflexivity. }
  destruct (helper.given_and_true kwargs helper.f_is_staff
            || helper.given_and_true kwargs helper.f_is_superuser); split.
  - intros f. destruct (decide (helper.f_is_staff = f)) as [<-|Hne].
    + rewrite lookup_insert_eq. eexists. reflexivity.
    + rewrite lookup_insert_ne by exact Hne. apply Hall.
  - intros f. case_decide as Hc.
    + destruct Hc as [-> _]. apply lookup_insert_eq.
    + assert (Hk : helper.f_is_staff ≠ f) by (intros <-; apply Hc; split; reflexivity).
      rewrite lookup_insert_ne by exact Hk.
      rewrite lookup_union.
      destruct (kwargs !! f), (helper.UserHelper_defaults !! f); reflexivity.
  - exact Hall.
  - intros f. case_decide as Hc.
    + destruct Hc as [_ Hc]. discriminate Hc.
    + rewrite lookup_union.
      destruct (kwargs !! f), (helper.UserHelper_defaults !! f); reflexivity.
Qed.

(** X15. What a [UserHelper] sends to the manager. The constructor makes
    one call, on the user model. Its keyword arguments are the attributes
    named in [iter_fields]: every attribute but [is_superuser], which is
    never sent. [username], [password], [first_name], [last_name] and
    [email] carry the keyword's value when one was given and the default
    otherwise. The constructor returns when the manager returns an object
    for this call, and lets the manager's exception through otherwise. *)
Theorem UserHelper_forwards_iter_fields (kwargs : gmap helper.UserField helper.PyVal) :
  ∃ (call : helper.ManagerCall helper.UserField) (A : gmap helper.UserField helper.PyVal),
    (∀ db, helper.UserHelper_init objects_call kwargs db =
           helper.set_object objects_call (helper.mkInstance A None) call db)
    ∧ helper.call_model call = "auth.User"
    ∧ (∀ f : helper.UserField,
         helper.call_fields call !! f =
           if decide (f = helper.f_is_superuser) then None else A !! f)
    ∧ ∀ f : helper.UserField,
        f ∈ [helper.f_username; helper.f_password; helper.f_first_name;
             helper.f_last_name; helper.f_email] →
        helper.call_fields call !! f = (kwargs ∪ helper.UserHelper_defaults) !! f.
Proof.
  eexists _, _. split; [intros db; apply UserHelper_init_runs|].
  cbn [helper.call_model helper.call_fields].
  split; [reflexivity|].
  unfold helper.py_dict. cbn [foldl fst snd].
  split.
  - destruct (helper.given_and_true kwargs helper.f_is_staff
              || helper.given_and_true kwargs helper.f_is_superuser);
      intros []; field_lookups; overlay_lookups kwargs; reflexivity.
  - intros f Hf. repeat (apply elem_of_cons in Hf as [->|Hf]).
    6: { apply elem_of_nil in Hf. destruct Hf. }
    all: field_lookups; overlay_lookups kwargs; reflexivity.
Qed.

(** X16. Which manager method a [UserHelper] calls. It is
    [create_superuser] exactly when a true [is_superuser] is among the
    keywords and [create_user] otherwise, never the plain [create] of
    [Helper]. Whenever a true [is_staff] or a true [is_superuser] was
    given, the call carries [is_staff=True], even if [is_staff=False] was
    given with it; so every [create_superuser] call carries
    [is_staff=True]. Otherwise [is_staff] goes as given, or as [False].
    The constructor returns when the manager returns an object for this
    call, and lets the manager's exception through otherwise. *)
Theorem UserHelper_manager_method (kwargs : gmap helper.UserField helper.PyVal) :
  ∃ (call : helper.ManagerCall helper.UserField) (A : gmap helper.UserField helper.PyVal),
    (∀ db, helper.UserHelper_init objects_call kwargs db =
           helper.set_object objects_call (helper.mkInstance A None) call db)
    ∧ helper.call_method call =
        (if helper.given_and_true kwargs helper.f_is_superuser
         then helper.create_superuser else helper.create_user)
    ∧ helper.call_fields call !! helper.f_is_staff =
        Some (if helper.given_and_true kwargs helper.f_is_staff
                 || helper.given_and_true kwargs helper.f_is_superuser
              then helper.VBool true
              else default (helper.VBool false) (kwargs !! helper.f_is_staff))
    ∧ (helper.call_method call = helper.create_superuser →
       helper.call_fields call !! helper.f_is_staff = Some (helper.VBool true)).
Proof.
  eexists _, _. split; [intros db; apply UserHelper_init_runs|].
  cbn [helper.call_method helper.call_fields].
  split; [reflexivity|].
  unfold helper.py_dict. cbn [foldl fst snd]. field_lookups.
  split; [reflexivity|].
  destruct (helper.given_and_true kwargs helper.f_is_superuser).
  - intros _. rewrite orb_true_r. reflexivity.
  - intros Hm. discriminate Hm.
Qed.

(** X17. The credentials of a [UserHelper] are the ones its user is created
    with: on the instance the constructor builds, [get_credentials] yields
    the user name and the password, in that order, with the values the
    manager call carries, which are the keywords' when given and "toto" and
    "hello-world" otherwise. *)
Theorem UserHelper_credentials (kwargs : gmap helper.UserField helper.PyVal) :
  ∃ (call : helper.ManagerCall helper.UserField) (A : gmap helper.UserField helper.PyVal)
    (u p : helper.PyVal),
    (∀ db, helper.UserHelper_init objects_call kwargs db =
           helper.set_object objects_call (helper.mkInstance A None) call db)
    ∧ (∀ o : option Obj,
         helper.get_credentials (helper.mkInstance A o) =
           (helper.Returns [(helper.f_username, u); (helper.f_password, p)]
            : helper.Outcome helper.UserField E _))
    ∧ helper.call_fields call !! helper.f_username = Some u
    ∧ helper.call_fields call !! helper.f_password = Some p
    ∧ u = default (helper.VStr "toto") (kwargs !! helper.f_username)
    ∧ p = default (helper.VStr "hello-world") (kwargs !! helper.f_password).
Proof.
  eexists _, _, _, _. split; [intros db; apply UserHelper_init_runs|].
  cbn [helper.call_fields].
  split.
  - intros o. unfold helper.get_credentials. cbn [helper.getattrs helper.attrs].
    destruct (helper.given_and_true kwargs helper.f_is_staff
              || helper.given_and_true kwargs helper.f_is_superuser).
    + rewrite !lookup_insert_ne by (intros Heq; discriminate Heq).
      overlay_lookups kwargs. reflexivity.
    + overlay_lookups kwargs. reflexivity.
  - unfold helper.py_dict. cbn [foldl fst snd].
    split; [field_lookups; reflexivity|].
    split; [field_lookups; reflexivity|].
    split; reflexivity.
Qed.

(** X18. The users of the tests against the flag policies. Take the call a
    [UserHelper] makes, and a request whose user carries the flags Django
    gives the object of that call. [StaffOnly] answers Allow exactly when a
    true [is_staff] or a true [is_superuser] was among the keywords, and
    [SuperuserOnly] exactly when a true [is_superuser] was; otherwise each
    answers DenyForbidden with its message. So the user of [UserHelper()]
    is refused by both, the user of [UserHelper(is_staff=True)] passes the
    first only and the user of [UserHelper(is_superuser=True)] passes
    both. *)
Theorem UserHelper_against_flag_policies (kwargs : gmap helper.UserField helper.PyVal)
    (objects : gset string) (self : View) (log : list LogRecord) :
  ∃ (call : helper.ManagerCall helper.UserField) (A : gmap helper.UserField helper.PyVal),
    (∀ db, helper.UserHelper_init objects_call kwargs db =
           helper.set_object objects_call (helper.mkInstance A None) call db)
    ∧ (is_staff (user (request self)) = helper.created_is_staff call →
       is_superuser (user (request self)) = helper.created_is_superuser call →
       dispatch StaffOnly objects self log =
         (if helper.given_and_true kwargs helper.f_is_staff
             || helper.given_and_true kwargs helper.f_is_superuser
          then Allow else DenyForbidden StaffMixin.permission_denied_message, log)
       ∧ dispatch SuperuserOnly objects self log =
         (if helper.given_and_true kwargs helper.f_is_superuser
          then Allow else DenyForbidden SuperuserMixin.permission_denied_message, log)).
Proof.
  eexists _, _. split; [intros db; apply UserHelper_init_runs|].
  unfold helper.created_is_staff, helper.created_is_superuser.
  cbn [helper.call_fields helper.call_method].
  unfold helper.py_dict. cbn [foldl fst snd]. field_lookups.
  intros Hstaff Hsuper.
  unfold dispatch, handle_no_permission.
  cbn [test_func raise_exception permission_denied_message StaffOnly SuperuserOnly].
  unfold StaffMixin.test_func, SuperuserMixin.test_func, ret.
  rewrite Hstaff, Hsuper. clear Hstaff Hsuper.
  pose proof (given_and_true_default kwargs helper.f_is_staff) as Hd.
  destruct (helper.given_and_true kwargs helper.f_is_staff),
    (helper.given_and_true kwargs helper.f_is_superuser);
    cbn [orb]; try rewrite Hd; split; reflexivity.
Qed.

End helper_properties.


(** [UserHelper(is_superuser=True)] in front of the recording manager, and
    its user in front of [StaffOnly]
    ([StaffUserRequiredMixinTest.test_superuser_user]). *)
Lemma UserHelper_against_flag_policies_witness :
  dispatch StaffOnly test_objects (page_of "owner" (mkUser "toto" true true true)) [] =
    (Allow, []).
Proof.
  destruct (UserHelper_against_flag_policies helper.recording_manager
              {[helper.f_is_superuser := helper.VBool true]}
              test_objects (page_of "owner" (mkUser "toto" true true true)) [])
    as (call & A & Hrun & Hpolicies).
  specialize (Hrun []). unfold helper.set_object, helper.recording_manager in Hrun.
  vm_compute in Hrun. injection Hrun as _ _ Hcall. subst call.
  destruct Hpolicies as [Hstaff _].
  - vm_compute. reflexivity.
  - vm_compute. reflexivity.
  - exact Hstaff.
Defined.
